(** * ESPUI slider asset: [dataSliderJS.h]

    The header declares two flash-resident constants: the text of the
    range-slider script, [JS_SLIDER], and a gzip member, [JS_SLIDER_GZIP].
    This development embeds both constants as they are written in the
    header and relates them through a decoder for the gzip file format
    (RFC 1952) and the DEFLATE compressed data format (RFC 1951). *)

From Stdlib Require Import String Ascii ZArith List Bool Lia.
Import ListNotations.

Local Open Scope string_scope.
Local Open Scope list_scope.
Local Open Scope Z_scope.

(** ** The string constant [JS_SLIDER]

    The header writes the script as a C++ raw string literal,
    [R"=====( ... )====="], that spans source lines 1 to 13.  A raw string
    keeps every character between the delimiters, line breaks included, so
    the value starts with the line break that follows the opening delimiter
    on line 1 and ends with the one that precedes the closing delimiter on
    line 13.

    Each source line is given below as its pieces between double-quote
    characters; [String.concat dq] puts the quote characters back. *)

Definition dq : string := String (ascii_of_nat 34) EmptyString.
Definition nl : string := String (ascii_of_nat 10) EmptyString.

Definition JS_SLIDER_line2 : string :=
  String.concat dq
    [ "function rkmd_rangeSlider(selector){var self,slider_width,slider_offset,curnt,sliderDiscrete,range,slider;self=$(selector);slider_width=self.width();slider_offset=self.offset().left;sliderDiscrete=self;sliderDiscrete.each(function(i,v){curnt=$(this);curnt.append(sliderDiscrete_tmplt());range=curnt.find('input[type="
    ; "range"
    ; "]');slider=curnt.find("
    ; ".slider"
    ; ");slider_fill=slider.find("
    ; ".slider-fill"
    ; ");slider_handle=slider.find("
    ; ".slider-handle"
    ; ");slider_label=slider.find("
    ; ".slider-label"
    ; ");var range_val=parseInt(range.val());slider_fill.css("
    ; "width"
    ; ",range_val+"
    ; "%"
    ; ");slider_handle.css("
    ; "left"
    ; ",range_val+"
    ; "%"
    ; ");slider_label.find("
    ; "span"
    ; ").text(range_val);});self.on("
    ; "mousedown touchstart"
    ; ","
    ; ".slider-handle"
    ; ",function(e){if(e.button===2){return false;}" ].

Definition JS_SLIDER_line3 : string :=
  String.concat dq
    [ "var parents=$(this).parents("
    ; ".rkmd-slider"
    ; ");var slider_width=parents.width();var slider_offset=parents.offset().left;var check_range=parents.find('input[type="
    ; "range"
    ; "]').is("
    ; ":disabled"
    ; ");if(check_range===true){return false;}" ].

Definition JS_SLIDER_line4 : string :=
  String.concat dq
    [ "$(this).addClass("
    ; "is-active"
    ; ");var moveFu=function(e){var pageX=e.pageX||e.changedTouches[0].pageX;var slider_new_width=pageX-slider_offset;if(slider_new_width<=slider_width&&!(slider_new_width<"
    ; "0"
    ; ")){slider_move(parents,slider_new_width,slider_width,true);}};var upFu=function(e){$(this).off(handlers);parents.find("
    ; ".is-active"
    ; ").removeClass("
    ; "is-active"
    ; ");};var handlers={mousemove:moveFu,touchmove:moveFu,mouseup:upFu,touchend:upFu};$(document).on(handlers);});self.on("
    ; "mousedown touchstart"
    ; ","
    ; ".slider"
    ; ",function(e){if(e.button===2){return false;}" ].

Definition JS_SLIDER_line5 : string :=
  String.concat dq
    [ "var parents=$(this).parents("
    ; ".rkmd-slider"
    ; ");var slider_width=parents.width();var slider_offset=parents.offset().left;var check_range=parents.find('input[type="
    ; "range"
    ; "]').is("
    ; ":disabled"
    ; ");if(check_range===true){return false;}" ].

Definition JS_SLIDER_line6 : string :=
  String.concat dq
    [ "var slider_new_width=e.pageX-slider_offset;if(slider_new_width<=slider_width&&!(slider_new_width<"
    ; "0"
    ; ")){slider_move(parents,slider_new_width,slider_width,true);}" ].

Definition JS_SLIDER_line7 : string :=
  String.concat dq
    [ "var upFu=function(e){$(this).off(handlers);};var handlers={mouseup:upFu,touchend:upFu};$(document).on(handlers);});}" ].

Definition JS_SLIDER_line8 : string :=
  String.concat dq
    [ "function sliderDiscrete_tmplt(){var tmplt='<div class="
    ; "slider"
    ; ">'+" ].

Definition JS_SLIDER_line9 : string :=
  String.concat dq
    [ "'<div class="
    ; "slider-fill"
    ; "></div>'+" ].

Definition JS_SLIDER_line10 : string :=
  String.concat dq
    [ "'<div class="
    ; "slider-handle"
    ; "><div class="
    ; "slider-label"
    ; "><span>0</span></div></div>'+" ].

Definition JS_SLIDER_line11 : string :=
  String.concat dq
    [ EmptyString
    ; "</div>"
    ; ";return tmplt;}" ].

Definition JS_SLIDER_line12 : string :=
  String.concat dq
    [ "function slider_move(parents,newW,sliderW,send){var slider_new_val=parseInt(Math.round((newW/sliderW)*100));var slider_fill=parents.find("
    ; ".slider-fill"
    ; ");var slider_handle=parents.find("
    ; ".slider-handle"
    ; ");var range=parents.find('input[type="
    ; "range"
    ; "]');slider_fill.css("
    ; "width"
    ; ",slider_new_val+"
    ; "%"
    ; ");slider_handle.css({left:slider_new_val+"
    ; "%"
    ; ",transition:"
    ; "none"
    ; ","
    ; "-webkit-transition"
    ; ":"
    ; "none"
    ; ","
    ; "-moz-transition"
    ; ":"
    ; "none"
    ; "});range.val(slider_new_val);if(parents.find("
    ; ".slider-handle span"
    ; ").text()!=slider_new_val){parents.find("
    ; ".slider-handle span"
    ; ").text(slider_new_val);var number=parents.attr("
    ; "id"
    ; ").substring(2);if(send)websock.send("
    ; "slvalue:"
    ; "+slider_new_val+"
    ; ":"
    ; "+number);}}" ].

Definition JS_SLIDER_lines : list string :=
  [ JS_SLIDER_line2; JS_SLIDER_line3; JS_SLIDER_line4; JS_SLIDER_line5
  ; JS_SLIDER_line6; JS_SLIDER_line7; JS_SLIDER_line8; JS_SLIDER_line9
  ; JS_SLIDER_line10; JS_SLIDER_line11; JS_SLIDER_line12 ].

Definition JS_SLIDER : string :=
  (nl ++ String.concat nl JS_SLIDER_lines ++ nl)%string.

(** Bytes are integers in [0, 256). *)
Definition byte_of_ascii (c : ascii) : Z := Z.of_N (N_of_ascii c).

Definition bytes_of_string (s : string) : list Z :=
  map byte_of_ascii (list_ascii_of_string s).

(** The array object [const char JS_SLIDER[]]: the characters of the
    literal followed by the terminating NUL that the compiler appends. *)
Definition JS_SLIDER_object : list Z := bytes_of_string JS_SLIDER ++ [0].

(** Length by terminator scan, as [strlen] / [strlen_P] compute it. *)
Fixpoint strlen (mem : list Z) : nat :=
  match mem with
  | [] => 0%nat
  | c :: rest => if c =? 0 then 0%nat else S (strlen rest)
  end.

(** ** The byte array [JS_SLIDER_GZIP]

    [const uint8_t JS_SLIDER_GZIP[869] PROGMEM = { 31,139,8,... };]
    The declared bound and the initializer list are kept apart. *)

Definition JS_SLIDER_GZIP_size : nat := 869.

Definition JS_SLIDER_GZIP_init : list Z :=
  [ 31; 139; 8; 0; 19; 56; 231; 94; 2; 255; 237; 86; 77; 143; 155; 48; 16; 189; 231; 87
  ; 100; 173; 237; 6; 186; 196; 155; 238; 49; 196; 185; 180; 170; 212; 67; 79; 173; 212; 74; 171
  ; 85; 228; 128; 89; 172; 16; 131; 176; 73; 218; 102; 243; 223; 59; 254; 128; 0; 33; 171; 109
  ; 79; 61; 244; 4; 246; 60; 143; 103; 222; 60; 123; 156; 84; 34; 82; 60; 23; 227; 114; 179
  ; 141; 87; 37; 21; 79; 236; 75; 198; 99; 86; 122; 146; 101; 44; 82; 121; 233; 31; 118; 180
  ; 28; 195; 40; 9; 164; 177; 172; 246; 60; 86; 105; 61; 200; 147; 68; 50; 21; 68; 85; 41
  ; 148; 155; 251; 192; 101; 84; 50; 197; 2; 227; 206; 77; 134; 218; 3; 185; 62; 185; 13; 219
  ; 222; 136; 182; 98; 243; 235; 53; 22; 235; 218; 154; 236; 191; 231; 227; 140; 37; 42; 236; 238
  ; 99; 16; 189; 57; 204; 104; 148; 122; 137; 203; 206; 227; 193; 206; 63; 152; 24; 33; 4; 149
  ; 114; 233; 135; 102; 132; 105; 81; 48; 17; 123; 221; 197; 43; 181; 45; 50; 216; 204; 15; 77
  ; 6; 196; 66; 19; 14; 192; 9; 23; 69; 165; 30; 212; 207; 130; 17; 100; 172; 232; 113; 82
  ; 71; 220; 6; 34; 108; 231; 80; 147; 78; 194; 179; 140; 216; 255; 46; 100; 170; 45; 39; 92
  ; 74; 69; 156; 177; 97; 164; 181; 157; 176; 25; 93; 179; 11; 78; 141; 9; 144; 186; 122; 38
  ; 208; 213; 142; 102; 164; 160; 165; 100; 159; 132; 242; 204; 20; 134; 41; 157; 102; 43; 66; 28
  ; 73; 233; 33; 83; 9; 20; 52; 235; 110; 209; 155; 126; 128; 22; 168; 203; 113; 9; 103; 34
  ; 112; 81; 201; 130; 10; 228; 99; 197; 126; 184; 173; 53; 218; 15; 143; 126; 104; 203; 43; 60
  ; 180; 205; 43; 201; 226; 124; 47; 198; 42; 175; 162; 84; 42; 90; 130; 235; 126; 234; 65; 83
  ; 83; 230; 31; 120; 226; 49; 188; 174; 148; 202; 5; 33; 228; 222; 63; 64; 245; 160; 4; 227
  ; 132; 102; 146; 133; 199; 145; 206; 29; 50; 102; 66; 201; 186; 238; 216; 141; 129; 40; 45; 249
  ; 105; 83; 37; 163; 242; 182; 36; 29; 176; 81; 101; 11; 224; 148; 89; 35; 186; 226; 212; 184
  ; 40; 101; 209; 198; 30; 167; 6; 245; 130; 126; 48; 135; 120; 230; 49; 151; 116; 157; 177; 24
  ; 130; 129; 196; 218; 46; 8; 81; 101; 197; 206; 210; 171; 83; 162; 113; 252; 62; 163; 186; 28
  ; 92; 78; 41; 176; 179; 99; 46; 161; 109; 190; 99; 31; 43; 210; 230; 204; 114; 242; 196; 190
  ; 19; 134; 205; 247; 249; 25; 106; 153; 234; 125; 226; 175; 154; 120; 38; 31; 102; 143; 214; 212
  ; 206; 89; 176; 125; 67; 12; 152; 166; 29; 42; 116; 192; 125; 220; 130; 180; 233; 188; 185; 185
  ; 58; 71; 160; 25; 242; 253; 131; 155; 214; 177; 122; 142; 172; 160; 15; 237; 222; 61; 134; 141
  ; 240; 120; 52; 241; 85; 69; 47; 195; 154; 22; 8; 205; 179; 170; 41; 225; 188; 119; 202; 128
  ; 112; 139; 41; 92; 50; 189; 247; 0; 133; 118; 131; 218; 7; 57; 24; 137; 106; 236; 220; 18
  ; 27; 24; 165; 182; 39; 12; 162; 42; 230; 58; 40; 107; 133; 235; 197; 140; 142; 225; 181; 23
  ; 231; 81; 181; 133; 40; 124; 45; 248; 83; 104; 175; 63; 5; 255; 229; 223; 75; 239; 76; 156
  ; 78; 212; 255; 130; 60; 71; 127; 160; 206; 65; 165; 253; 133; 142; 142; 163; 122; 175; 241; 112
  ; 79; 51; 231; 223; 252; 147; 201; 34; 230; 187; 113; 164; 101; 79; 144; 19; 194; 114; 114; 59
  ; 26; 152; 183; 45; 106; 185; 184; 3; 203; 37; 136; 187; 160; 151; 3; 38; 219; 139; 150; 11
  ; 221; 5; 150; 179; 197; 157; 249; 90; 103; 141; 75; 100; 255; 80; 232; 170; 108; 98; 60; 207
  ; 167; 91; 7; 40; 192; 55; 199; 61; 124; 129; 34; 247; 90; 57; 149; 167; 211; 244; 62; 83
  ; 149; 226; 50; 175; 64; 137; 158; 94; 122; 231; 150; 250; 111; 223; 205; 102; 126; 71; 227; 166
  ; 91; 247; 238; 140; 110; 187; 110; 129; 93; 203; 30; 134; 55; 61; 187; 233; 196; 175; 57; 19
  ; 23; 123; 114; 55; 183; 75; 141; 249; 160; 207; 226; 252; 28; 11; 218; 164; 66; 114; 77; 232
  ; 28; 137; 92; 64; 67; 69; 211; 61; 91; 111; 184; 154; 158; 76; 232; 100; 219; 230; 191; 6
  ; 12; 71; 247; 52; 50; 15; 136; 238; 46; 230; 244; 190; 196; 196; 184; 253; 22; 240; 175; 72
  ; 111; 249; 225; 213; 107; 251; 251; 106; 126; 69; 181; 93; 195; 67; 172; 246; 65; 149; 42; 225
  ; 74; 135; 59; 5; 203; 106; 45; 85; 201; 197; 147; 119; 111; 66; 52; 106; 129; 204; 101; 30
  ; 109; 176; 30; 192; 35; 37; 3; 63; 21; 155; 163; 219; 62; 113; 48; 101; 61; 235; 174; 243
  ; 27; 27; 117; 74; 231; 52; 11; 0; 0 ].

(** The values a [uint8_t] can hold. *)
Definition fits_uint8 (v : Z) : bool := (0 <=? v) && (v <=? 255).

(** List-initialization of [uint8_t a[size] = { init }]: elements without
    an initializer are zero; the program is ill-formed ([None]) when the
    list is longer than the bound or when an initializer does not fit the
    element type, which would be a narrowing conversion. *)
Definition array_init (size : nat) (init : list Z) : option (list Z) :=
  if (length init <=? size)%nat && forallb fits_uint8 init
  then Some (init ++ repeat 0 (size - length init))
  else None.

Definition JS_SLIDER_GZIP : list Z :=
  match array_init JS_SLIDER_GZIP_size JS_SLIDER_GZIP_init with
  | Some a => a
  | None => []
  end.

(** ** Results of decoding *)

Inductive error : Set :=
| TruncatedInput
| BadMagic
| BadMethod
| ReservedFlags
| HeaderCrcMismatch
| BadBlockType
| BadStoredLength
| BadCodeLengths
| BadSymbol
| BadDistance
| CrcMismatch
| SizeMismatch
| TrailingData
| OutOfFuel.

Inductive result (A : Type) : Type :=
| Ok (a : A)
| Err (e : error).

Arguments Ok {A} a.
Arguments Err {A} e.

Definition bind {A B : Type} (r : result A) (k : A -> result B) : result B :=
  match r with
  | Ok a => k a
  | Err e => Err e
  end.

Notation "x <- r ;; k" := (bind r (fun x => k))
  (at level 61, r at next level, right associativity).
Notation "' p <- r ;; k" := (bind r (fun x => let p := x in k))
  (at level 61, p pattern, r at next level, right associativity).

Definition is_ok {A : Type} (r : result A) : bool :=
  match r with
  | Ok _ => true
  | Err _ => false
  end.

(** ** DEFLATE (RFC 1951)

    The header holds data only.  The decoder that the specification calls a
    standard gzip decompressor lives outside the repository; it is written
    here from RFC 1951 (this module) and RFC 1952 (module [Gzip]), with the
    checks zlib applies to code length sets, distances and trailers. *)

Module Deflate.

(** Data elements are packed into bytes starting from the least
    significant bit (RFC 1951, 3.1.1). *)
Definition bits_of_byte (b : Z) : list bool :=
  map (Z.testbit b) [0; 1; 2; 3; 4; 5; 6; 7].

Definition bits_of_bytes (bs : list Z) : list bool :=
  flat_map bits_of_byte bs.

(** An [n]-bit field, least significant bit first. *)
Fixpoint read_bits (n : nat) (bs : list bool) : result (Z * list bool) :=
  match n with
  | O => Ok (0, bs)
  | S n' =>
      match bs with
      | [] => Err TruncatedInput
      | b :: rest =>
          '(v, rest') <- read_bits n' rest ;;
          Ok (Z.b2z b + 2 * v, rest')
      end
  end.

(** Drop the bits up to the next byte boundary.  The stream always holds
    whole bytes, so the position is known from what is left. *)
Definition align (bs : list bool) : list bool :=
  skipn (length bs mod 8) bs.

(** *** Huffman codes from code lengths (RFC 1951, 3.2.2) *)

Definition MAX_BITS : nat := 15.

(** Step 1: the number of codes of each length. *)
Definition bl_count (lens : list nat) (n : nat) : Z :=
  match n with
  | O => 0
  | _ => Z.of_nat (count_occ Nat.eq_dec lens n)
  end.

(** Step 2: the smallest code of each length. *)
Fixpoint next_code (lens : list nat) (bits : nat) : Z :=
  match bits with
  | O => 0
  | S b => (next_code lens b + bl_count lens b) * 2
  end.

(** Step 3: consecutive codes to the symbols of one length, in symbol
    order.  An entry is (length, code, symbol). *)
Fixpoint assign_codes (next : nat -> Z) (sym : nat) (lens : list nat)
  : list (nat * Z * nat) :=
  match lens with
  | [] => []
  | len :: rest =>
      if (len =? 0)%nat then assign_codes next (S sym) rest
      else (len, next len, sym)
             :: assign_codes
                  (fun l => if (l =? len)%nat then next l + 1 else next l)
                  (S sym) rest
  end.

Definition huffman (lens : list nat) : list (nat * Z * nat) :=
  assign_codes (next_code lens) 0%nat lens.

(** The code space used by a set of lengths, in units of 2^-15. *)
Definition kraft (lens : list nat) : Z :=
  fold_right
    (fun len acc => if (len =? 0)%nat then acc else 2 ^ Z.of_nat (MAX_BITS - len) + acc)
    0 lens.

Definition max_len (lens : list nat) : nat := fold_right Nat.max 0%nat lens.

(** An over-subscribed set is rejected; an incomplete one is accepted only
    for literal/length and distance codes whose longest code has one bit. *)
Definition lengths_ok (allow_incomplete : bool) (lens : list nat) : bool :=
  (max_len lens <=? MAX_BITS)%nat &&
  ((kraft lens =? 2 ^ Z.of_nat MAX_BITS)
   || (allow_incomplete && (max_len lens <=? 1)%nat
       && (kraft lens <? 2 ^ Z.of_nat MAX_BITS))).

Definition matches (len : nat) (code : Z) (e : nat * Z * nat) : bool :=
  let '(l, c, _) := e in (l =? len)%nat && (c =? code).

(** Codes are read one bit at a time, most significant bit first, until
    the bits read so far are the code of a symbol. *)
Fixpoint decode_from (tbl : list (nat * Z * nat)) (fuel len : nat) (code : Z)
         (bs : list bool) : result (nat * list bool) :=
  match fuel with
  | O => Err BadSymbol
  | S fuel' =>
      match bs with
      | [] => Err TruncatedInput
      | b :: rest =>
          let code' := 2 * code + Z.b2z b in
          match find (matches (S len) code') tbl with
          | Some (_, _, sym) => Ok (sym, rest)
          | None => decode_from tbl fuel' (S len) code' rest
          end
      end
  end.

Definition decode (tbl : list (nat * Z * nat)) (bs : list bool)
  : result (nat * list bool) :=
  decode_from tbl MAX_BITS 0%nat 0 bs.

(** *** Length and distance codes (RFC 1951, 3.2.5)

    Entries are (base value, number of extra bits). *)
Definition length_table : list (Z * Z) :=
  [ (3, 0); (4, 0); (5, 0); (6, 0); (7, 0); (8, 0); (9, 0); (10, 0)
  ; (11, 1); (13, 1); (15, 1); (17, 1)
  ; (19, 2); (23, 2); (27, 2); (31, 2)
  ; (35, 3); (43, 3); (51, 3); (59, 3)
  ; (67, 4); (83, 4); (99, 4); (115, 4)
  ; (131, 5); (163, 5); (195, 5); (227, 5)
  ; (258, 0) ].

Definition dist_table : list (Z * Z) :=
  [ (1, 0); (2, 0); (3, 0); (4, 0)
  ; (5, 1); (7, 1); (9, 2); (13, 2)
  ; (17, 3); (25, 3); (33, 4); (49, 4)
  ; (65, 5); (97, 5); (129, 6); (193, 6)
  ; (257, 7); (385, 7); (513, 8); (769, 8)
  ; (1025, 9); (1537, 9); (2049, 10); (3073, 10)
  ; (4097, 11); (6145, 11); (8193, 12); (12289, 12)
  ; (16385, 13); (24577, 13) ].

Definition lookup {A : Type} (e : error) (tbl : list A) (i : nat) : result A :=
  match nth_error tbl i with
  | Some a => Ok a
  | None => Err e
  end.

(** *** Output window

    The output is kept newest byte first, with its length alongside. *)
Record output : Type := mkOutput { rev_bytes : list Z; size : Z }.

Definition empty_output : output := mkOutput [] 0.

Definition emit (b : Z) (o : output) : output :=
  mkOutput (b :: rev_bytes o) (size o + 1).

Definition bytes_of (o : output) : list Z := rev (rev_bytes o).

(** Copy [n] bytes starting [dist] bytes back, one at a time, so that a
    copy may overlap the bytes it produces. *)
Fixpoint copy (n : nat) (dist : nat) (o : output) : result output :=
  match n with
  | O => Ok o
  | S n' =>
      match nth_error (rev_bytes o) (dist - 1) with
      | Some b => copy n' dist (emit b o)
      | None => Err BadDistance
      end
  end.

(** *** Compressed blocks (RFC 1951, 3.2.3)

    Every symbol takes at least one bit, so the number of bits left
    bounds the number of symbols; [fuel] is set from it. *)
Fixpoint inflate_codes (fuel : nat) (lit dist : list (nat * Z * nat))
         (o : output) (bs : list bool) : result (output * list bool) :=
  match fuel with
  | O => Err OutOfFuel
  | S fuel' =>
      '(sym, bs1) <- decode lit bs ;;
      if (sym <? 256)%nat then
        inflate_codes fuel' lit dist (emit (Z.of_nat sym) o) bs1
      else if (sym =? 256)%nat then Ok (o, bs1)
      else
        '(lbase, lextra) <- lookup BadSymbol length_table (sym - 257) ;;
        '(ladd, bs2) <- read_bits (Z.to_nat lextra) bs1 ;;
        '(dsym, bs3) <- decode dist bs2 ;;
        '(dbase, dextra) <- lookup BadDistance dist_table dsym ;;
        '(dadd, bs4) <- read_bits (Z.to_nat dextra) bs3 ;;
        o' <- copy (Z.to_nat (lbase + ladd)) (Z.to_nat (dbase + dadd)) o ;;
        inflate_codes fuel' lit dist o' bs4
  end.

(** *** Stored blocks (RFC 1951, 3.2.4) *)
Fixpoint read_bytes (n : nat) (o : output) (bs : list bool)
  : result (output * list bool) :=
  match n with
  | O => Ok (o, bs)
  | S n' =>
      '(b, rest) <- read_bits 8 bs ;;
      read_bytes n' (emit b o) rest
  end.

Definition stored_block (o : output) (bs : list bool)
  : result (output * list bool) :=
  '(len, bs1) <- read_bits 16 (align bs) ;;
  '(nlen, bs2) <- read_bits 16 bs1 ;;
  if Z.lxor len 65535 =? nlen then read_bytes (Z.to_nat len) o bs2
  else Err BadStoredLength.

(** *** Fixed Huffman codes (RFC 1951, 3.2.6) *)
Definition fixed_lit_lengths : list nat :=
  (repeat 8 144 ++ repeat 9 112 ++ repeat 7 24 ++ repeat 8 8)%nat.

Definition fixed_dist_lengths : list nat := repeat 5%nat 32%nat.

(** *** Dynamic Huffman codes (RFC 1951, 3.2.7) *)
Definition clen_order : list nat :=
  [16; 17; 18; 0; 8; 7; 9; 6; 10; 5; 11; 4; 12; 3; 13; 2; 14; 1; 15]%nat.

Fixpoint read_clens (n : nat) (bs : list bool) : result (list nat * list bool) :=
  match n with
  | O => Ok ([], bs)
  | S n' =>
      '(v, bs1) <- read_bits 3 bs ;;
      '(vs, bs2) <- read_clens n' bs1 ;;
      Ok (Z.to_nat v :: vs, bs2)
  end.

Fixpoint index_of (x : nat) (l : list nat) : option nat :=
  match l with
  | [] => None
  | y :: rest =>
      if (x =? y)%nat then Some 0%nat else option_map S (index_of x rest)
  end.

(** The lengths of the code length alphabet, symbols 0 to 18, from the
    fields read in [clen_order]; fields not sent are zero. *)
Definition clen_lengths (vals : list nat) : list nat :=
  map (fun sym =>
         match index_of sym clen_order with
         | Some i => nth i vals 0%nat
         | None => 0%nat
         end)
      (seq 0 19).

Fixpoint read_lengths (fuel : nat) (tbl : list (nat * Z * nat)) (need : nat)
         (acc : list nat) (bs : list bool) : result (list nat * list bool) :=
  match need with
  | O => Ok (rev acc, bs)
  | S _ =>
      match fuel with
      | O => Err OutOfFuel
      | S fuel' =>
          '(sym, bs1) <- decode tbl bs ;;
          if (sym <? 16)%nat then
            read_lengths fuel' tbl (need - 1) (sym :: acc) bs1
          else if (sym =? 16)%nat then
            match acc with
            | [] => Err BadCodeLengths
            | prev :: _ =>
                '(e, bs2) <- read_bits 2 bs1 ;;
                let n := (3 + Z.to_nat e)%nat in
                if (need <? n)%nat then Err BadCodeLengths
                else read_lengths fuel' tbl (need - n) (repeat prev n ++ acc) bs2
            end
          else if (sym =? 17)%nat then
            '(e, bs2) <- read_bits 3 bs1 ;;
            let n := (3 + Z.to_nat e)%nat in
            if (need <? n)%nat then Err BadCodeLengths
            else read_lengths fuel' tbl (need - n) (repeat 0%nat n ++ acc) bs2
          else
            '(e, bs2) <- read_bits 7 bs1 ;;
            let n := (11 + Z.to_nat e)%nat in
            if (need <? n)%nat then Err BadCodeLengths
            else read_lengths fuel' tbl (need - n) (repeat 0%nat n ++ acc) bs2
      end
  end.

Definition dynamic_tables (bs : list bool)
  : result (list (nat * Z * nat) * list (nat * Z * nat) * list bool) :=
  '(hlit, bs1) <- read_bits 5 bs ;;
  '(hdist, bs2) <- read_bits 5 bs1 ;;
  '(hclen, bs3) <- read_bits 4 bs2 ;;
  let nlit := Z.to_nat (hlit + 257) in
  let ndist := Z.to_nat (hdist + 1) in
  let nclen := Z.to_nat (hclen + 4) in
  if ((286 <? nlit) || (30 <? ndist))%nat then Err BadCodeLengths
  else
    '(fields, bs4) <- read_clens nclen bs3 ;;
    let cl := clen_lengths fields in
    if negb (lengths_ok false cl) then Err BadCodeLengths
    else
      '(lens, bs5) <- read_lengths (S (length bs4)) (huffman cl) (nlit + ndist) [] bs4 ;;
      let lit_lens := firstn nlit lens in
      let dist_lens := skipn nlit lens in
      if (nth 256 lit_lens 0 =? 0)%nat then Err BadCodeLengths
      else if lengths_ok true lit_lens && lengths_ok true dist_lens
           then Ok (huffman lit_lens, huffman dist_lens, bs5)
           else Err BadCodeLengths.

(** *** The block sequence (RFC 1951, 3.2.3) *)
Definition inflate_block (btype : Z) (o : output) (bs : list bool)
  : result (output * list bool) :=
  if btype =? 0 then stored_block o bs
  else if btype =? 1 then
    inflate_codes (S (length bs)) (huffman fixed_lit_lengths)
                  (huffman fixed_dist_lengths) o bs
  else if btype =? 2 then
    '(lit, dist, bs') <- dynamic_tables bs ;;
    inflate_codes (S (length bs')) lit dist o bs'
  else Err BadBlockType.

Fixpoint inflate_blocks (fuel : nat) (o : output) (bs : list bool)
  : result (output * list bool) :=
  match fuel with
  | O => Err OutOfFuel
  | S fuel' =>
      '(bfinal, bs1) <- read_bits 1 bs ;;
      '(btype, bs2) <- read_bits 2 bs1 ;;
      '(o', bs3) <- inflate_block btype o bs2 ;;
      if bfinal =? 1 then Ok (o', bs3) else inflate_blocks fuel' o' bs3
  end.

(** Modelled from the spec: the DEFLATE half of the standard gzip
    decompressor, which the repository does not contain; after RFC 1951.
    The result is the decoded bytes and the bits that follow the final
    block. *)
Definition inflate (bs : list bool) : result (list Z * list bool) :=
  '(o, rest) <- inflate_blocks (S (length bs)) empty_output bs ;;
  Ok (bytes_of o, rest).

End Deflate.

(** ** The gzip file format (RFC 1952) *)

Module Gzip.

(** CRC-32 as in RFC 1952, section 8, one bit at a time. *)
Definition crc_step (crc : Z) : Z :=
  if Z.testbit crc 0
  then Z.lxor (Z.shiftr crc 1) 0xEDB88320
  else Z.shiftr crc 1.

Definition crc_byte (crc b : Z) : Z := Nat.iter 8 crc_step (Z.lxor crc b).

Definition crc32 (data : list Z) : Z :=
  Z.lxor (fold_left crc_byte data 0xFFFFFFFF) 0xFFFFFFFF.

(** A little-endian unsigned integer. *)
Definition le (bytes : list Z) : Z :=
  fold_right (fun b acc => b + 256 * acc) 0 bytes.

Definition ID1 : Z := 0x1f.
Definition ID2 : Z := 0x8b.
Definition CM_DEFLATE : Z := 8.

(** Bits of FLG. *)
Definition FHCRC : Z := 1.
Definition FEXTRA : Z := 2.
Definition FNAME : Z := 3.
Definition FCOMMENT : Z := 4.

Definition skip_extra (flg : Z) (bs : list Z) : result (list Z) :=
  if Z.testbit flg FEXTRA then
    match bs with
    | lo :: hi :: rest =>
        let n := Z.to_nat (le [lo; hi]) in
        if (length rest <? n)%nat then Err TruncatedInput else Ok (skipn n rest)
    | _ => Err TruncatedInput
    end
  else Ok bs.

Fixpoint skip_zstring (bs : list Z) : result (list Z) :=
  match bs with
  | [] => Err TruncatedInput
  | b :: rest => if b =? 0 then Ok rest else skip_zstring rest
  end.

Definition skip_if (flg bit : Z) (bs : list Z) : result (list Z) :=
  if Z.testbit flg bit then skip_zstring bs else Ok bs.

(** With FHCRC set, the two bytes after the optional fields are the low
    half of the CRC-32 of the header before them. *)
Definition check_hcrc (flg : Z) (all bs : list Z) : result (list Z) :=
  if Z.testbit flg FHCRC then
    match bs with
    | lo :: hi :: rest =>
        let header := firstn (length all - length bs) all in
        if le [lo; hi] =? crc32 header mod 65536 then Ok rest
        else Err HeaderCrcMismatch
    | _ => Err TruncatedInput
    end
  else Ok bs.

(** The compressed blocks of a member: what follows its header. *)
Definition member_body (bytes : list Z) : result (list Z) :=
  match bytes with
  | id1 :: id2 :: cm :: flg :: _ :: _ :: _ :: _ :: _ :: _ :: rest =>
      if negb ((id1 =? ID1) && (id2 =? ID2)) then Err BadMagic
      else if negb (cm =? CM_DEFLATE) then Err BadMethod
      else if negb (Z.shiftr flg 5 =? 0) then Err ReservedFlags
      else
        r1 <- skip_extra flg rest ;;
        r2 <- skip_if flg FNAME r1 ;;
        r3 <- skip_if flg FCOMMENT r2 ;;
        check_hcrc flg bytes r3
  | _ => Err TruncatedInput
  end.

(** Modelled from the spec: the standard gzip decompressor, which the
    repository does not contain; after RFC 1952.  It accepts a file of
    exactly one member: header, compressed blocks, padding to the byte
    boundary, CRC32 and ISIZE of the uncompressed data, and nothing after
    them. *)
Definition gunzip (bytes : list Z) : result (list Z) :=
  body <- member_body bytes ;;
  '(out, rest) <- Deflate.inflate (Deflate.bits_of_bytes body) ;;
  '(crc, rest1) <- Deflate.read_bits 32 (Deflate.align rest) ;;
  '(isize, rest2) <- Deflate.read_bits 32 rest1 ;;
  if negb (crc =? crc32 out) then Err CrcMismatch
  else if negb (isize =? Z.of_nat (length out) mod 2 ^ 32) then Err SizeMismatch
  else match rest2 with
       | [] => Ok out
       | _ :: _ => Err TrailingData
       end.

End Gzip.

(** ** The translation unit

    The header consists of two declarations.  A declaration of an array
    object records the qualifiers written in the source; function
    definitions are a second kind of declaration, of which the header has
    none. *)

Inductive elem_type : Set := char | uint8_t.

Record array_decl : Type := mkArray
  { name : string
  ; elem : elem_type
  ; const_qualified : bool
  ; progmem : bool
  ; declared_bound : option nat
  ; contents : list Z }.

Inductive decl : Type :=
| Object (d : array_decl)
| Function (fname : string).

(** [const char JS_SLIDER[] PROGMEM = R"=====(...)=====";] *)
Definition JS_SLIDER_decl : array_decl :=
  mkArray "JS_SLIDER" char true true None JS_SLIDER_object.

(** [const uint8_t JS_SLIDER_GZIP[869] PROGMEM = { ... };] *)
Definition JS_SLIDER_GZIP_decl : array_decl :=
  mkArray "JS_SLIDER_GZIP" uint8_t true true (Some JS_SLIDER_GZIP_size)
          JS_SLIDER_GZIP.

Definition translation_unit : list decl :=
  [ Object JS_SLIDER_decl; Object JS_SLIDER_GZIP_decl ].

Definition decl_name (d : decl) : string :=
  match d with
  | Object a => name a
  | Function f => f
  end.

Definition is_function (d : decl) : bool :=
  match d with
  | Object _ => false
  | Function _ => true
  end.

Definition is_mutable_object (d : decl) : bool :=
  match d with
  | Object a => negb (const_qualified a)
  | Function _ => false
  end.

Definition is_flash_constant (d : decl) : bool :=
  match d with
  | Object a => const_qualified a && progmem a
  | Function _ => false
  end.

(** ** Bounds on what a decoding step leaves

    [within n r]: the result [r] is not a fuel error and, when it is a
    success, at most [n] bits are left to read. *)
Definition within {A : Type} (n : nat) (r : result (A * list bool)) : Prop :=
  match r with
  | Ok (_, rest) => (length rest <= n)%nat
  | Err e => e <> OutOfFuel
  end.

(** Closed equations between values of the constants are settled by
    evaluating both sides. *)
Ltac by_evaluation := vm_compute; reflexivity.

Ltac conjuncts := repeat match goal with |- _ /\ _ => split end.

(** ** The literal as C++ reads it

    A raw string literal [R"=====( ... )====="] ends at the first place
    where a closing parenthesis is followed by the five delimiter
    characters and a double quote (source line 13). *)
Definition closing_delimiter : list Z := bytes_of_string (")=====" ++ dq).

Fixpoint starts_with (p t : list Z) : bool :=
  match p, t with
  | [], _ => true
  | _ :: _, [] => false
  | a :: p', b :: t' => (a =? b) && starts_with p' t'
  end.

Fixpoint occurs (p t : list Z) : bool :=
  starts_with p t
  || match t with
     | [] => false
     | _ :: t' => occurs p t'
     end.

(** The value of a byte read through [char] when [char] is signed. *)
Definition as_signed_char (b : Z) : Z := if b <? 128 then b else b - 256.

(** * Properties *)

(** ** The decoder on small files

    Members produced by zlib for short inputs: a fixed-Huffman block with a
    back-reference, a stored block, a header that carries a file name, and
    two damaged files. *)

Example gunzip_fixed_block :
  Gzip.gunzip
    [ 31; 139; 8; 0; 0; 0; 0; 0; 2; 3; 75; 76; 74; 78; 132; 33; 0
    ; 52; 42; 110; 90; 12; 0; 0; 0 ]
  = Ok (bytes_of_string "abcabcabcabc").
Proof. vm_compute. reflexivity. Qed.

Example gunzip_stored_block :
  Gzip.gunzip
    [ 31; 139; 8; 0; 0; 0; 0; 0; 4; 3; 1; 3; 0; 252; 255; 97; 98; 99
    ; 194; 65; 36; 53; 3; 0; 0; 0 ]
  = Ok (bytes_of_string "abc").
Proof. vm_compute. reflexivity. Qed.

Example gunzip_named_member :
  Gzip.gunzip
    [ 31; 139; 8; 8; 0; 0; 0; 0; 2; 255; 115; 46; 106; 115; 0
    ; 75; 76; 132; 1; 0; 240; 205; 17; 76; 10; 0; 0; 0 ]
  = Ok (bytes_of_string "aaaaaaaaaa").
Proof. vm_compute. reflexivity. Qed.

Example gunzip_damaged_crc :
  Gzip.gunzip
    [ 31; 139; 8; 0; 0; 0; 0; 0; 4; 3; 1; 3; 0; 252; 255; 97; 98; 99
    ; 195; 65; 36; 53; 3; 0; 0; 0 ]
  = Err CrcMismatch.
Proof. vm_compute. reflexivity. Qed.

Example gunzip_cut_short :
  Gzip.gunzip [ 31; 139; 8; 0; 0; 0; 0; 0; 2; 3; 75; 76; 74 ]
  = Err TruncatedInput.
Proof. vm_compute. reflexivity. Qed.

(** ** General facts *)

Lemma strlen_stops_at_NUL (text rest : list Z) :
  Forall (fun b => b <> 0) text ->
  strlen (text ++ 0 :: rest) = length text.
Proof.
  induction 1 as [| b text Hb _ IH]; simpl.
  - reflexivity.
  - destruct (Z.eqb_spec b 0) as [E | _]; [contradiction | now rewrite IH].
Qed.

(** What a list shares with the same list wrapped in one element on each
    side. *)
Lemma wrapped_list (a z : Z) (whole mid : list Z) :
  whole = a :: mid ++ [z] ->
  (length mid + 2 = length whole)%nat /\
  forall i, (i < length mid)%nat -> nth i mid 0 = nth (S i) whole 0.
Proof.
  intros ->. split.
  - cbn [length]. rewrite length_app. cbn [length]. lia.
  - intros i Hi. cbn [nth]. symmetry. now apply app_nth1.
Qed.

Lemma Forall_of_forallb {A : Type} (p : A -> bool) (P : A -> Prop) (l : list A) :
  (forall x, p x = true -> P x) ->
  forallb p l = true -> Forall P l.
Proof.
  intros HpP. induction l as [| x l IH]; simpl; intros H.
  - constructor.
  - apply andb_true_iff in H as [Hx Hl]. constructor; auto.
Qed.

(** ** The decoder never runs out of fuel

    Every loop of the decoder takes at least one bit per round, and each is
    started with more fuel than there are bits. *)

Lemma within_mono {A : Type} (n m : nat) (r : result (A * list bool)) :
  (n <= m)%nat -> within n r -> within m r.
Proof.
  destruct r as [[a rest] | e]; simpl; [lia | auto].
Qed.

Lemma within_bind {A B : Type} (n m : nat) (r : result (A * list bool))
      (k : A * list bool -> result (B * list bool)) :
  within n r ->
  (forall a rest, (length rest <= n)%nat -> within m (k (a, rest))) ->
  within m (bind r k).
Proof.
  destruct r as [[a rest] | e]; simpl; auto.
Qed.

Lemma within_bind_plain {A B : Type} (m : nat) (r : result A)
      (k : A -> result (B * list bool)) :
  r <> Err OutOfFuel ->
  (forall a, within m (k a)) ->
  within m (bind r k).
Proof.
  destruct r as [a | e]; simpl; auto. intros H _ ->. now apply H.
Qed.

Lemma read_bits_within (k : nat) (bs : list bool) (n : nat) :
  (length bs <= k + n)%nat -> within n (Deflate.read_bits k bs).
Proof.
  revert bs. induction k as [| k IH]; intros bs Hlen; simpl.
  - exact Hlen.
  - destruct bs as [| b rest]; [discriminate |].
    simpl in Hlen. apply (within_bind n); [apply IH; lia |].
    intros v rest' Hrest. exact Hrest.
Qed.

Lemma read_bits_keeps (k : nat) (bs : list bool) (n : nat) :
  (length bs <= n)%nat -> within n (Deflate.read_bits k bs).
Proof.
  intros H. apply read_bits_within. lia.
Qed.

Lemma decode_from_within (tbl : list (nat * Z * nat)) (fuel len : nat)
      (code : Z) (bs : list bool) (n : nat) :
  (length bs <= S n)%nat -> within n (Deflate.decode_from tbl fuel len code bs).
Proof.
  revert len code bs n. induction fuel as [| fuel IH]; intros len code bs n Hlen; simpl.
  - discriminate.
  - destruct bs as [| b rest]; [discriminate |]. simpl in Hlen.
    destruct (find _ tbl) as [[[l c] sym] |].
    + simpl. lia.
    + destruct n as [| n].
      * destruct rest; [| simpl in Hlen; lia].
        destruct fuel; simpl; discriminate.
      * apply (within_mono n); [lia |]. apply IH. lia.
Qed.

Lemma decode_within (tbl : list (nat * Z * nat)) (bs : list bool) (n : nat) :
  (length bs <= S n)%nat -> within n (Deflate.decode tbl bs).
Proof.
  apply decode_from_within.
Qed.

Lemma decode_nil (tbl : list (nat * Z * nat)) :
  Deflate.decode tbl [] = Err TruncatedInput.
Proof.
  reflexivity.
Qed.

Lemma lookup_fuelled {A : Type} (e : error) (tbl : list A) (i : nat) :
  e <> OutOfFuel -> Deflate.lookup e tbl i <> Err OutOfFuel.
Proof.
  intros He. unfold Deflate.lookup. destruct (nth_error tbl i); congruence.
Qed.

Lemma copy_fuelled (n dist : nat) (o : Deflate.output) :
  Deflate.copy n dist o <> Err OutOfFuel.
Proof.
  revert o. induction n as [| n IH]; intros o; simpl.
  - discriminate.
  - destruct (nth_error _ _); [apply IH | discriminate].
Qed.

Lemma inflate_codes_within (fuel : nat) (lit dist : list (nat * Z * nat))
      (o : Deflate.output) (bs : list bool) (n : nat) :
  (length bs <= n)%nat -> (n < fuel)%nat ->
  within n (Deflate.inflate_codes fuel lit dist o bs).
Proof.
  revert o bs n. induction fuel as [| fuel IH]; intros o bs n Hlen Hfuel; [lia |].
  cbn [Deflate.inflate_codes].
  destruct n as [| n].
  { destruct bs; [| simpl in Hlen; lia]. rewrite decode_nil. discriminate. }
  apply (within_bind n); [apply decode_within; exact Hlen |].
  intros sym bs1 H1. cbn beta iota.
  destruct (sym <? 256)%nat.
  { apply (within_mono n); [lia |]. apply IH; [exact H1 | lia]. }
  destruct (sym =? 256)%nat; [simpl; lia |].
  apply within_bind_plain; [apply lookup_fuelled; discriminate |].
  intros [lbase lextra]. cbn beta iota.
  apply (within_bind n); [apply read_bits_keeps; exact H1 |].
  intros ladd bs2 H2. cbn beta iota.
  destruct n as [| n].
  { destruct bs2; [| simpl in H2; lia]. rewrite decode_nil. discriminate. }
  apply (within_bind n); [apply decode_within; exact H2 |].
  intros dsym bs3 H3. cbn beta iota.
  apply within_bind_plain; [apply lookup_fuelled; discriminate |].
  intros [dbase dextra]. cbn beta iota.
  apply (within_bind n); [apply read_bits_keeps; exact H3 |].
  intros dadd bs4 H4. cbn beta iota.
  apply within_bind_plain; [apply copy_fuelled |].
  intros o'. apply (within_mono n); [lia |]. apply IH; [exact H4 | lia].
Qed.

Lemma read_bytes_within (k : nat) (o : Deflate.output) (bs : list bool) (n : nat) :
  (length bs <= n)%nat -> within n (Deflate.read_bytes k o bs).
Proof.
  revert o bs. induction k as [| k IH]; intros o bs Hlen; cbn [Deflate.read_bytes].
  - exact Hlen.
  - apply (within_bind n); [apply read_bits_keeps; exact Hlen |].
    intros b rest Hrest. cbn beta iota. apply IH. exact Hrest.
Qed.

Lemma align_length (bs : list bool) :
  (length (Deflate.align bs) <= length bs)%nat.
Proof.
  unfold Deflate.align. rewrite length_skipn. lia.
Qed.

Lemma stored_block_within (o : Deflate.output) (bs : list bool) (n : nat) :
  (length bs <= n)%nat -> within n (Deflate.stored_block o bs).
Proof.
  intros Hlen. unfold Deflate.stored_block.
  apply (within_bind n).
  { apply read_bits_keeps. pose proof (align_length bs). lia. }
  intros len bs1 H1. cbn beta iota.
  apply (within_bind n); [apply read_bits_keeps; exact H1 |].
  intros nlen bs2 H2. cbn beta iota.
  destruct (Z.lxor len 65535 =? nlen); [| discriminate].
  apply read_bytes_within. exact H2.
Qed.

Lemma read_clens_within (k : nat) (bs : list bool) (n : nat) :
  (length bs <= n)%nat -> within n (Deflate.read_clens k bs).
Proof.
  revert bs. induction k as [| k IH]; intros bs Hlen; cbn [Deflate.read_clens].
  - exact Hlen.
  - apply (within_bind n); [apply read_bits_keeps; exact Hlen |].
    intros v bs1 H1. cbn beta iota.
    apply (within_bind n); [apply IH; exact H1 |].
    intros vs bs2 H2. exact H2.
Qed.

Lemma read_lengths_within (fuel : nat) (tbl : list (nat * Z * nat))
      (need : nat) (acc : list nat) (bs : list bool) (n : nat) :
  (length bs <= n)%nat -> (n < fuel)%nat ->
  within n (Deflate.read_lengths fuel tbl need acc bs).
Proof.
  revert need acc bs n.
  induction fuel as [| fuel IH]; intros need acc bs n Hlen Hfuel; [lia |].
  destruct need as [| need]; [exact Hlen |].
  cbn [Deflate.read_lengths].
  destruct n as [| n].
  { destruct bs; [| simpl in Hlen; lia]. rewrite decode_nil. discriminate. }
  assert (Hrec : forall need' acc' bs',
             (length bs' <= n)%nat ->
             within (S n) (Deflate.read_lengths fuel tbl need' acc' bs')).
  { intros need' acc' bs' H. apply (within_mono n); [lia |]. apply IH; [exact H | lia]. }
  assert (Hrep : forall k base fill bs',
             (length bs' <= n)%nat ->
             within (S n)
               ('(e, bs2) <- Deflate.read_bits k bs' ;;
                let m := (base + Z.to_nat e)%nat in
                if (S need <? m)%nat then Err BadCodeLengths
                else Deflate.read_lengths fuel tbl (S need - m)
                                          (repeat fill m ++ acc) bs2)).
  { intros k base fill bs' H.
    apply (within_bind n); [apply read_bits_keeps; exact H |].
    intros e bs2 H2. cbn beta iota zeta.
    destruct (_ <? _)%nat; [discriminate | apply Hrec; exact H2]. }
  apply (within_bind n); [apply decode_within; exact Hlen |].
  intros sym bs1 H1. cbn beta iota.
  destruct (sym <? 16)%nat; [apply Hrec; exact H1 |].
  destruct (sym =? 16)%nat.
  { destruct acc as [| prev acc']; [discriminate |].
    exact (Hrep 2%nat 3%nat prev bs1 H1). }
  destruct (sym =? 17)%nat.
  - exact (Hrep 3%nat 3%nat 0%nat bs1 H1).
  - exact (Hrep 7%nat 11%nat 0%nat bs1 H1).
Qed.

Lemma dynamic_tables_within (bs : list bool) (n : nat) :
  (length bs <= n)%nat -> within n (Deflate.dynamic_tables bs).
Proof.
  intros Hlen. unfold Deflate.dynamic_tables.
  apply (within_bind n); [apply read_bits_keeps; exact Hlen |].
  intros hlit bs1 H1. cbn beta iota.
  apply (within_bind n); [apply read_bits_keeps; exact H1 |].
  intros hdist bs2 H2. cbn beta iota.
  apply (within_bind n); [apply read_bits_keeps; exact H2 |].
  intros hclen bs3 H3. cbn beta iota zeta.
  destruct (_ || _); [discriminate |].
  apply (within_bind n); [apply read_clens_within; exact H3 |].
  intros fields bs4 H4. cbn beta iota zeta.
  destruct (negb _); [discriminate |].
  apply (within_bind n).
  { apply (within_mono (length bs4)); [exact H4 |].
    apply read_lengths_within; lia. }
  intros lens bs5 H5. cbn beta iota zeta.
  destruct (_ =? _)%nat; [discriminate |].
  destruct (_ && _); [exact H5 | discriminate].
Qed.

Lemma inflate_block_within (btype : Z) (o : Deflate.output) (bs : list bool)
      (n : nat) :
  (length bs <= n)%nat -> within n (Deflate.inflate_block btype o bs).
Proof.
  intros Hlen. unfold Deflate.inflate_block.
  destruct (btype =? 0); [apply stored_block_within; exact Hlen |].
  destruct (btype =? 1).
  { apply (within_mono (length bs)); [exact Hlen |].
    apply inflate_codes_within; lia. }
  destruct (btype =? 2); [| discriminate].
  apply (within_bind n); [apply dynamic_tables_within; exact Hlen |].
  intros [lit dist] bs' H'. cbn beta iota.
  apply (within_mono (length bs')); [exact H' |].
  apply inflate_codes_within; lia.
Qed.

Lemma inflate_blocks_within (fuel : nat) (o : Deflate.output) (bs : list bool)
      (n : nat) :
  (length bs <= n)%nat -> (n < fuel)%nat ->
  within n (Deflate.inflate_blocks fuel o bs).
Proof.
  revert o bs n. induction fuel as [| fuel IH]; intros o bs n Hlen Hfuel; [lia |].
  cbn [Deflate.inflate_blocks].
  destruct n as [| n].
  { destruct bs; [| simpl in Hlen; lia]. discriminate. }
  apply (within_bind n); [apply read_bits_within; simpl; lia |].
  intros bfinal bs1 H1. cbn beta iota.
  apply (within_bind n); [apply read_bits_keeps; exact H1 |].
  intros btype bs2 H2. cbn beta iota.
  apply (within_bind n); [apply inflate_block_within; exact H2 |].
  intros o' bs3 H3. cbn beta iota.
  destruct (bfinal =? 1); [simpl; lia |].
  apply (within_mono n); [lia |]. apply IH; [exact H3 | lia].
Qed.

Lemma inflate_within (bs : list bool) :
  within (length bs) (Deflate.inflate bs).
Proof.
  unfold Deflate.inflate.
  apply (within_bind (length bs)); [apply inflate_blocks_within; lia |].
  intros o rest Hrest. exact Hrest.
Qed.

Lemma bind_fuelled {A B : Type} (r : result A) (k : A -> result B) :
  r <> Err OutOfFuel ->
  (forall a, k a <> Err OutOfFuel) ->
  bind r k <> Err OutOfFuel.
Proof.
  destruct r as [a | e]; simpl; auto. intros H _ E. apply H. congruence.
Qed.

Lemma within_fuelled {A : Type} (n : nat) (r : result (A * list bool)) :
  within n r -> r <> Err OutOfFuel.
Proof.
  destruct r as [[a rest] | e]; simpl; [discriminate | congruence].
Qed.

Lemma skip_zstring_fuelled (bs : list Z) :
  Gzip.skip_zstring bs <> Err OutOfFuel.
Proof.
  induction bs as [| b bs IH]; simpl; [discriminate |].
  destruct (b =? 0); [discriminate | exact IH].
Qed.

Lemma member_body_fuelled (bytes : list Z) :
  Gzip.member_body bytes <> Err OutOfFuel.
Proof.
  unfold Gzip.member_body.
  do 10 (destruct bytes as [| ? bytes]; [discriminate |]).
  destruct (negb _); [discriminate |].
  destruct (negb _); [discriminate |].
  destruct (negb _); [discriminate |].
  apply bind_fuelled.
  { unfold Gzip.skip_extra. destruct (Z.testbit _ _); [| discriminate].
    destruct bytes as [| lo [| hi rest]]; try discriminate.
    destruct (_ <? _)%nat; discriminate. }
  intros r1. apply bind_fuelled.
  { unfold Gzip.skip_if. destruct (Z.testbit _ _);
      [apply skip_zstring_fuelled | discriminate]. }
  intros r2. apply bind_fuelled.
  { unfold Gzip.skip_if. destruct (Z.testbit _ _);
      [apply skip_zstring_fuelled | discriminate]. }
  intros r3. unfold Gzip.check_hcrc.
  destruct (Z.testbit _ _); [| discriminate].
  destruct r3 as [| lo [| hi rest]]; try discriminate.
  destruct (_ =? _); discriminate.
Qed.

(** Whatever the input, the decoder stops with a result or an error of the
    format, never for want of fuel. *)
Lemma gunzip_fuelled (bytes : list Z) :
  Gzip.gunzip bytes <> Err OutOfFuel.
Proof.
  unfold Gzip.gunzip.
  apply bind_fuelled; [apply member_body_fuelled |].
  intros body. apply bind_fuelled.
  { apply (within_fuelled (length (Deflate.bits_of_bytes body))), inflate_within. }
  intros [out rest]. apply bind_fuelled.
  { apply (within_fuelled (length (Deflate.align rest))), read_bits_keeps. lia. }
  intros [crc rest1]. apply bind_fuelled.
  { apply (within_fuelled (length rest1)), read_bits_keeps. lia. }
  intros [isize rest2].
  destruct (negb _); [discriminate |].
  destruct (negb _); [discriminate |].
  destruct rest2; discriminate.
Qed.

(** ** The two constants *)

(** C1, as stated, fails: the decoded array is two bytes shorter than
    [JS_SLIDER], and already the bytes at index 0 differ (the letter f
    against the line break that opens the raw string). *)
Lemma gunzip_JS_SLIDER_GZIP_is_not_JS_SLIDER :
  exists out,
    Gzip.gunzip JS_SLIDER_GZIP = Ok out /\
    length out = 2868%nat /\
    length (bytes_of_string JS_SLIDER) = 2870%nat /\
    nth 0 out 0 = 102 /\
    nth 0 (bytes_of_string JS_SLIDER) 0 = 10 /\
    out <> bytes_of_string JS_SLIDER.
Proof.
  exists (removelast (tl (bytes_of_string JS_SLIDER))).
  conjuncts; try by_evaluation.
  intros E. apply (f_equal (@length Z)) in E. vm_compute in E. discriminate E.
Qed.

(** C1, amended: decoding [JS_SLIDER_GZIP] succeeds and yields the bytes of
    [JS_SLIDER] between its first and its last byte, which are both line
    breaks: the decoded length is the length of [JS_SLIDER] minus two, and
    for every index [i] below the decoded length the [i]-th decoded byte is
    byte [i + 1] of [JS_SLIDER]. *)
Theorem gunzip_JS_SLIDER_GZIP_is_script_text :
  exists out,
    Gzip.gunzip JS_SLIDER_GZIP = Ok out /\
    bytes_of_string JS_SLIDER = 10 :: out ++ [10] /\
    (length out + 2 = length (bytes_of_string JS_SLIDER))%nat /\
    forall i, (i < length out)%nat ->
              nth i out 0 = nth (S i) (bytes_of_string JS_SLIDER) 0.
Proof.
  exists (removelast (tl (bytes_of_string JS_SLIDER))).
  assert (E : bytes_of_string JS_SLIDER
              = 10 :: removelast (tl (bytes_of_string JS_SLIDER)) ++ [10])
    by (vm_compute; reflexivity).
  split; [vm_compute; reflexivity |].
  split; [exact E |].
  exact (wrapped_list _ _ _ _ E).
Qed.

(** C2: [JS_SLIDER_GZIP] is one well-formed gzip member of 869 bytes.  It
    starts with the magic bytes 0x1f 0x8b and compression method 8; its
    body is a DEFLATE stream that decodes without error and ends, after
    padding to the byte boundary, exactly at the last eight bytes; these
    hold the CRC-32 and the length of the decoded data; and the decoder
    returns a success. *)
Theorem JS_SLIDER_GZIP_well_formed :
  length JS_SLIDER_GZIP = 869%nat /\
  firstn 3 JS_SLIDER_GZIP = [0x1f; 0x8b; 8] /\
  Gzip.member_body JS_SLIDER_GZIP = Ok (skipn 10 JS_SLIDER_GZIP) /\
  exists out rest,
    Deflate.inflate (Deflate.bits_of_bytes (skipn 10 JS_SLIDER_GZIP))
    = Ok (out, rest) /\
    Deflate.align rest = Deflate.bits_of_bytes (skipn 861 JS_SLIDER_GZIP) /\
    Gzip.le (firstn 4 (skipn 861 JS_SLIDER_GZIP)) = Gzip.crc32 out /\
    Gzip.le (skipn 865 JS_SLIDER_GZIP) = Z.of_nat (length out) /\
    Gzip.gunzip JS_SLIDER_GZIP = Ok out /\
    is_ok (Gzip.gunzip JS_SLIDER_GZIP) = true.
Proof.
  do 3 (split; [by_evaluation |]).
  exists (removelast (tl (bytes_of_string JS_SLIDER))).
  exists (false :: false :: false
          :: Deflate.bits_of_bytes (skipn 861 JS_SLIDER_GZIP)).
  conjuncts; by_evaluation.
Qed.

(** C4: the translation unit declares exactly two entities, the objects
    [JS_SLIDER] (an array of [char]) and [JS_SLIDER_GZIP] (an array of
    [uint8_t]); both are const-qualified and placed in flash; it declares
    no function and no object that can be written. *)
Theorem translation_unit_is_two_flash_constants :
  map decl_name translation_unit = ["JS_SLIDER"; "JS_SLIDER_GZIP"] /\
  forallb is_flash_constant translation_unit = true /\
  filter is_function translation_unit = [] /\
  filter is_mutable_object translation_unit = [] /\
  map elem [JS_SLIDER_decl; JS_SLIDER_GZIP_decl] = [char; uint8_t].
Proof.
  conjuncts; reflexivity.
Qed.

(** C5: the bound declared for [JS_SLIDER_GZIP] is 869, its initializer
    list has exactly 869 values, each of them within 0..255, so that
    initialization adds no zero element and changes no value. *)
Theorem JS_SLIDER_GZIP_bound_matches_initializer :
  JS_SLIDER_GZIP_size = 869%nat /\
  length JS_SLIDER_GZIP_init = JS_SLIDER_GZIP_size /\
  Forall (fun v => 0 <= v <= 255) JS_SLIDER_GZIP_init /\
  array_init JS_SLIDER_GZIP_size JS_SLIDER_GZIP_init = Some JS_SLIDER_GZIP_init /\
  JS_SLIDER_GZIP = JS_SLIDER_GZIP_init.
Proof.
  conjuncts; try by_evaluation.
  apply (Forall_of_forallb (fun v => (0 <=? v) && (v <=? 255))).
  - intros v Hv. apply andb_true_iff in Hv as [H0 H1]. lia.
  - vm_compute. reflexivity.
Qed.

(** C6, as stated, fails: ISIZE is 2868, while [JS_SLIDER] has 2870
    bytes. *)
Lemma ISIZE_is_not_length_of_JS_SLIDER :
  Gzip.le (skipn 865 JS_SLIDER_GZIP) = 2868 /\
  Z.of_nat (length (bytes_of_string JS_SLIDER)) = 2870 /\
  Gzip.le (skipn 865 JS_SLIDER_GZIP)
  <> Z.of_nat (length (bytes_of_string JS_SLIDER)).
Proof.
  conjuncts; try by_evaluation.
  vm_compute. discriminate.
Qed.

(** C6, amended: the last four bytes of [JS_SLIDER_GZIP] are 52, 11, 0, 0;
    read as a little-endian integer they are 2868, which is the length of
    [JS_SLIDER] (2870 bytes) less its first and its last byte, the two line
    breaks next to the raw string delimiters. *)
Theorem ISIZE_is_length_between_line_breaks :
  skipn 865 JS_SLIDER_GZIP = [52; 11; 0; 0] /\
  Gzip.le (skipn 865 JS_SLIDER_GZIP) = 2868 /\
  Z.of_nat (length (bytes_of_string JS_SLIDER)) = 2868 + 2 /\
  hd 0 (bytes_of_string JS_SLIDER) = 10 /\
  last (bytes_of_string JS_SLIDER) 0 = 10 /\
  Gzip.le (skipn 865 JS_SLIDER_GZIP)
  = Z.of_nat (length (removelast (tl (bytes_of_string JS_SLIDER)))).
Proof.
  conjuncts; by_evaluation.
Qed.

(** C7: no byte of [JS_SLIDER] is NUL, so a scan for the terminator over
    the stored object stops at the appended NUL and sees the whole text:
    [strlen] returns the length of the literal, and the bytes before the
    terminator are those of [JS_SLIDER]. *)
Theorem JS_SLIDER_has_no_NUL :
  Forall (fun b => b <> 0) (bytes_of_string JS_SLIDER) /\
  strlen JS_SLIDER_object = length (bytes_of_string JS_SLIDER) /\
  firstn (strlen JS_SLIDER_object) JS_SLIDER_object = bytes_of_string JS_SLIDER.
Proof.
  assert (H : Forall (fun b => b <> 0) (bytes_of_string JS_SLIDER)).
  { apply (Forall_of_forallb (fun b => negb (b =? 0))).
    - intros b Hb. apply negb_true_iff, Z.eqb_neq in Hb. exact Hb.
    - vm_compute. reflexivity. }
  assert (L : strlen JS_SLIDER_object = length (bytes_of_string JS_SLIDER))
    by (apply strlen_stops_at_NUL; exact H).
  split; [exact H |]. split; [exact L |].
  rewrite L. unfold JS_SLIDER_object.
  rewrite firstn_app, Nat.sub_diag, firstn_all. apply app_nil_r.
Qed.

(** ** Further properties of the string constant *)

Lemma starts_with_app (p rest : list Z) :
  starts_with p (p ++ rest) = true.
Proof.
  induction p as [| a p IH]; simpl.
  - reflexivity.
  - now rewrite Z.eqb_refl, IH.
Qed.

Lemma occurs_at_head (p t : list Z) :
  starts_with p t = true -> occurs p t = true.
Proof.
  intros H. destruct t; cbn [occurs]; now rewrite H.
Qed.

Lemma occurs_app (p pre post : list Z) :
  occurs p (pre ++ p ++ post) = true.
Proof.
  induction pre as [| a pre IH].
  - change ([] ++ p ++ post) with (p ++ post).
    apply occurs_at_head, starts_with_app.
  - cbn [app occurs]. rewrite IH. apply orb_true_r.
Qed.

Lemma occurs_false (p t : list Z) :
  occurs p t = false -> forall pre post, t <> pre ++ p ++ post.
Proof.
  intros H pre post E. rewrite E, occurs_app in H. discriminate H.
Qed.

(** X1: every byte of [JS_SLIDER] is a line feed or a printable ASCII
    character (32..126): the text has no control character other than the
    line feed, no carriage return or tab, and no byte with the top bit set,
    so each element has the same value whether [char] is signed or not. *)
Theorem JS_SLIDER_is_printable_ascii :
  Forall (fun b => b = 10 \/ 32 <= b <= 126) (bytes_of_string JS_SLIDER) /\
  map as_signed_char (bytes_of_string JS_SLIDER) = bytes_of_string JS_SLIDER.
Proof.
  split.
  - apply (Forall_of_forallb (fun b => (b =? 10) || ((32 <=? b) && (b <=? 126)))).
    + intros b Hb. apply orb_true_iff in Hb as [H | H].
      * left. now apply Z.eqb_eq.
      * right. apply andb_true_iff in H as [H0 H1]. lia.
    + by_evaluation.
  - by_evaluation.
Qed.

(** X2: the closing delimiter of the raw string literal, a closing
    parenthesis followed by five equals signs and a double quote, occurs
    nowhere inside [JS_SLIDER]; the literal therefore ends at source
    line 13 and not inside the script. *)
Theorem JS_SLIDER_has_no_closing_delimiter :
  length closing_delimiter = 7%nat /\
  forall pre post,
    bytes_of_string JS_SLIDER <> pre ++ closing_delimiter ++ post.
Proof.
  split; [reflexivity |].
  apply occurs_false. by_evaluation.
Qed.
